(** * AddonReviewListItem: the review list item of the add-ons storefront

    A shallow embedding of [src/amo/components/AddonReviewListItem/index.js]:
    the props of the component, its event handlers (as computations that
    record what they dispatch, log and throw), [renderReply], [render]
    (as functions to a tree of React elements) and [mapStateToProps]. *)

From Stdlib Require Import ZArith String Ascii List Bool.
From stdpp Require Import gmap strings.
Import ListNotations.
Local Open Scope Z_scope.

(** ** Data model *)

(** Modelled from the spec: [UserReviewType] is declared in
    [amo/actions/reviews], which is not part of the sources at hand. The spec
    gives a review an identifier, a title, a body text, a rating, the author's
    identifier and name, a creation timestamp and an optional nested reply,
    itself shaped like a review. Numbers are integers here. *)
#[warnings="-register-all"]
Inductive UserReviewType : Type := mkReview {
  review_id : Z;
  title : string;
  body : string;
  rating : Z;
  userId : Z;
  userName : string;
  created : Z;
  reply : option UserReviewType;
}.

(** Modelled from the spec: [UserStateType] is declared in
    [core/reducers/user]. Of the viewer only the identifier is read by the
    component; it is a number, or null ([None]) when nobody is signed in. *)
Record UserStateType : Type := mkUser {
  user_id : option Z;
}.

(** The three flags the store keeps per review ([state.reviews.view[id]]). *)
Module ViewState.
Record t : Type := mk {
  editingReview : bool;
  replyingToReview : bool;
  submittingReply : bool;
}.
End ViewState.

(** [ReviewState] of [amo/reducers/reviews]: the component reads its [view]
    object only, a JS object used as a map from review identifiers. *)
Record ReviewState : Type := mkReviewState {
  view : gmap Z ViewState.t;
}.

(** The argument of [mapStateToProps]: [{| user, reviews |}]. *)
Record StateType : Type := mkState {
  user : UserStateType;
  reviews : ReviewState;
}.

(** The object [mapStateToProps] returns. *)
Module StateProps.
Record t : Type := mk {
  editingReview : bool;
  isAuthenticated : bool;
  replyingToReview : bool;
  siteUser : UserStateType;
  submittingReply : bool;
}.
End StateProps.

(** Something another module rendered, of which the component knows
    nothing. *)
Variant Renderable : Type := Opaque (key : string).

(** [ErrorHandlerType] of [core/errorHandler], as far as the component uses
    it: the [id] field and the values its two methods return when called. *)
Record ErrorHandlerType : Type := mkErrorHandler {
  errorHandler_id : string;
  hasError : bool;
  renderErrorIfPresent : option Renderable;
}.

(** The [i18n] prop: [gettext], [sprintf] with its object of named
    arguments, and [moment(created).fromNow()] as one function. *)
Record I18n : Type := mkI18n {
  gettext : string -> string;
  sprintf : string -> list (string * string) -> string;
  moment_fromNow : Z -> string;
}.

(** ** Actions, effects and completions *)

(** What the action creators of [amo/actions/reviews] were called with. *)
Inductive Action : Type :=
| hideEditReviewForm (reviewId : Z)
| hideReplyToReviewForm (reviewId : Z)
| sendReplyToReview (errorHandlerId : string) (originalReviewId : Z)
                    (body : string)
| showEditReviewForm (reviewId : Z)
| showReplyToReviewForm (reviewId : Z).

Inductive JsError : Type :=
| Error (message : string)
| TypeError (message : string).

(** Whether an optional value is there: [x !== undefined], and the truth
    value of an object that may be missing or null. *)
Definition defined {A} (x : option A) : bool :=
  match x with
  | Some _ => true
  | None => false
  end.

(** How a JS computation ends: with a value or with a thrown error. *)
Inductive Completion (A : Type) : Type :=
| Normal (a : A)
| Throw (e : JsError).
Arguments Normal {A} a.
Arguments Throw {A} e.

Definition cbind {A B} (c : Completion A) (k : A -> Completion B)
  : Completion B :=
  match c with
  | Normal a => k a
  | Throw e => Throw e
  end.

(** What a handler does to the outside, in order. *)
Inductive Effect : Type :=
| PreventDefault
| LogDebug (msg : string)
| Dispatch (a : Action).

(** A handler run: the effects so far and how it ended. *)
Definition Eff (A : Type) : Type := (list Effect * Completion A)%type.

Definition eret {A} (a : A) : Eff A := ([], Normal a).

Definition ebind {A B} (m : Eff A) (k : A -> Eff B) : Eff B :=
  match m with
  | (tr, Normal a) => let (tr', c) := k a in (tr ++ tr', c)
  | (tr, Throw e) => (tr, Throw e)
  end.

(** Both are monads; the handlers and [render] are written with stdpp's
    notations for bind. *)
#[global] Instance Completion_ret : MRet Completion := @Normal.
#[global] Instance Completion_bind : MBind Completion :=
  fun A B k c => cbind c k.
#[global] Instance Eff_ret : MRet Eff := @eret.
#[global] Instance Eff_bind : MBind Eff := fun A B k m => ebind m k.

Definition preventDefault : Eff unit := ([PreventDefault], Normal tt).
Definition log_debug (msg : string) : Eff unit := ([LogDebug msg], Normal tt).
Definition dispatch (a : Action) : Eff unit := ([Dispatch a], Normal tt).
Definition throw {A} (e : JsError) : Eff A := ([], Throw e).

(** The actions a run dispatched, in order. *)
Fixpoint dispatched_of (tr : list Effect) : list Action :=
  match tr with
  | [] => []
  | Dispatch a :: tr' => a :: dispatched_of tr'
  | _ :: tr' => dispatched_of tr'
  end.

Fixpoint logged_of (tr : list Effect) : list string :=
  match tr with
  | [] => []
  | LogDebug m :: tr' => m :: logged_of tr'
  | _ :: tr' => logged_of tr'
  end.

Definition dispatched {A} (m : Eff A) : list Action := dispatched_of (fst m).
Definition logged {A} (m : Eff A) : list string := logged_of (fst m).
Definition completion {A} (m : Eff A) : Completion A := snd m.

(** ** [core/utils]: [nl2br] and [sanitizeHTML] *)

Module Utils.

(** Modelled from the spec: [nl2br] lives in [core/utils], which is not
    part of the sources at hand. The spec: newline characters are converted to
    line breaks. Every line feed becomes a line-break tag. *)
Fixpoint nl2br (text : string) : string :=
  match text with
  | EmptyString => EmptyString
  | String c rest =>
      if Ascii.eqb c "010" then "<br />" +:+ nl2br rest
      else String c (nl2br rest)
  end.

(** The pieces of a markup string: a character of text, or a tag with its
    name, opening or closing. *)
Inductive Token : Type :=
| TChar (c : ascii)
| TTag (closing : bool) (name : string).

(** The name of a tag: what follows [<] (or [</]) up to the first blank
    or slash. *)
Fixpoint tag_name (s : string) : string :=
  match s with
  | EmptyString => EmptyString
  | String c rest =>
      if Ascii.is_space c || Ascii.eqb c "/" then EmptyString
      else String c (tag_name rest)
  end.

Definition tag_of (inner : string) : Token :=
  match inner with
  | String c rest =>
      if Ascii.eqb c "/" then TTag true (tag_name rest)
      else TTag false (tag_name inner)
  | EmptyString => TTag false EmptyString
  end.

Inductive LexState : Type :=
| Outside
| Inside (inner : string).

(** Splits markup into tokens. A tag runs from [<] to the next [>]; a [<]
    that is never closed is dropped with what follows it. *)
Fixpoint lex (st : LexState) (s : string) : list Token :=
  match s with
  | EmptyString => []
  | String c rest =>
      match st with
      | Outside =>
          if Ascii.eqb c "<" then lex (Inside EmptyString) rest
          else TChar c :: lex Outside rest
      | Inside inner =>
          if Ascii.eqb c ">" then tag_of inner :: lex Outside rest
          else lex (Inside (inner +:+ String c EmptyString)) rest
      end
  end.

Definition allowed (allowedTags : list string) (name : string) : bool :=
  bool_decide (name ∈ allowedTags).

(** Keeps text and the tags of the allow-list. A script element that is
    not allowed goes with its content ([in_script] is true inside it). *)
Fixpoint strip (allowedTags : list string) (in_script : bool)
    (ts : list Token) : list Token :=
  match ts with
  | [] => []
  | t :: ts' =>
      if in_script then
        match t with
        | TChar _ => strip allowedTags true ts'
        | TTag closing name =>
            if closing && String.eqb name "script"
            then strip allowedTags false ts'
            else strip allowedTags true ts'
        end
      else
        match t with
        | TChar c => TChar c :: strip allowedTags false ts'
        | TTag closing name =>
            if allowed allowedTags name then
              TTag closing name :: strip allowedTags false ts'
            else if negb closing && String.eqb name "script" then
              strip allowedTags true ts'
            else strip allowedTags false ts'
        end
  end.

Definition print_token (t : Token) : string :=
  match t with
  | TChar c => String c EmptyString
  | TTag closing name =>
      "<" +:+ (if closing then "/" else EmptyString) +:+ name +:+ ">"
  end.

Fixpoint print (ts : list Token) : string :=
  match ts with
  | [] => EmptyString
  | t :: ts' => print_token t +:+ print ts'
  end.

(** Modelled from the spec: [sanitizeHTML] lives in [core/utils] and hands
    the markup to an external sanitizer. The spec: [sanitize(text,
    allowedTags) -> safe-markup], a boundary that strips unsafe markup; only
    the tags of the allow-list survive and script content must not run. Kept
    tags are written back bare, as [<name>] or [</name>]. *)
Definition sanitizeHTML (text : string) (allowedTags : list string) : string :=
  print (strip allowedTags false (lex Outside text)).

(** The names of the tags that occur in a markup string. *)
Fixpoint tag_names (ts : list Token) : list string :=
  match ts with
  | [] => []
  | TChar _ :: ts' => tag_names ts'
  | TTag _ name :: ts' => name :: tag_names ts'
  end.

Definition tags_of (markup : string) : list string :=
  tag_names (lex Outside markup).

(** The text a markup string shows once its tags are taken away. *)
Fixpoint text_chars (ts : list Token) : string :=
  match ts with
  | [] => EmptyString
  | TChar c :: ts' => String c (text_chars ts')
  | TTag _ _ :: ts' => text_chars ts'
  end.

Definition text_of (markup : string) : string :=
  text_chars (lex Outside markup).

(** A token that [lex] reads back as it is printed: a character other
    than [<], or a tag whose name is a bare name without [>]. *)
Fixpoint gt_free (s : string) : Prop :=
  match s with
  | EmptyString => True
  | String c rest => c <> ">"%char /\ gt_free rest
  end.

Definition wf_token (t : Token) : Prop :=
  match t with
  | TChar c => c <> "<"%char
  | TTag _ name => tag_name name = name /\ gt_free name
  end.

Definition wf_state (st : LexState) : Prop :=
  match st with
  | Outside => True
  | Inside inner => gt_free inner
  end.

End Utils.

(** ** What the component imports *)

(** The functions the component imports and whose code is elsewhere:
    [isAddonAuthor], [nl2br] and [sanitizeHTML] of [core/utils] and
    [isAuthenticated] of [core/reducers/user] (here [user_isAuthenticated];
    the prop of that name is [isAuthenticated]), with the add-on type of
    [core/types/addons]. [isAddonAuthor] gets the add-on and the [userId]. *)
Class Imports : Type := {
  AddonType : Type;
  isAddonAuthor : AddonType -> option Z -> bool;
  user_isAuthenticated : StateType -> bool;
  nl2br : string -> string;
  sanitizeHTML : string -> list string -> string;
}.

(** The handlers an element can carry, by the name of the class property. *)
Variant Handler : Type :=
| OnClickToEditReview
| OnEscapeReviewOverlay
| OnReviewSubmitted
| OnClickToBeginReviewReply
| OnDismissReviewReply
| OnSubmitReviewReply.

#[global] Instance Handler_eq_dec : EqDecision Handler.
Proof. solve_decision. Defined.

(** The props of a DOM element that the component sets. *)
Module Dom.
Record props : Type := mk {
  className : option string;
  href : option string;
  onClick : option Handler;
  dangerouslySetInnerHTML : option string;
}.
(** An element with a class only, and one without props. *)
Definition cls (c : string) : props := mk (Some c) None None None.
Definition none : props := mk None None None None.
End Dom.

(** The props of [DismissibleTextForm] that the component sets. *)
Module TextForm.
Record props : Type := mk {
  className : string;
  isSubmitting : bool;
  onDismiss : Handler;
  onSubmit : Handler;
  placeholder : string;
  submitButtonText : string;
  submitButtonInProgressText : string;
  text : option string;
}.
End TextForm.

(** What [DismissibleTextForm] hands to its [onSubmit]: the text typed. *)
Module OnSubmitParams.
Record t : Type := mk { text : string }.
End OnSubmitParams.

Section Component.
Context `{Imports}.

(** The props, but for [dispatch], whose calls are the [Dispatch] effects.
    [addon], [isReplyToReviewId] and [review] are optional; [siteUser] is
    optional here too since [render] tests it. *)
Record PropsType : Type := mkProps {
  addon : option AddonType;
  editingReview : bool;
  errorHandler : ErrorHandlerType;
  isAuthenticated : bool;
  isReplyToReviewId : option Z;
  i18n : I18n;
  review : option UserReviewType;
  replyingToReview : bool;
  siteUser : option UserStateType;
  submittingReply : bool;
}.

(** What [render] returns: DOM elements with their children, and elements
    of other components with the props they are given. *)
#[warnings="-register-all"]
Inductive ReactNode : Type :=
| Null
| Text (s : string)
| Host (tag : string) (props : Dom.props) (children : list ReactNode)
| Icon (name : string)
| LoadingText
| Rating (styleName : string) (stars : Z) (readOnly : bool)
| AddonReview (onEscapeOverlay onReviewSubmitted : Handler)
              (reviewed : UserReviewType)
| DismissibleTextForm (form : TextForm.props)
| AddonReviewListItem (item_addon : option AddonType)
                      (item_isReplyToReviewId : option Z)
                      (item_review : option UserReviewType)
| Rendered (r : Renderable).

(** *** The handlers *)

Definition onClickToEditReview (p : PropsType) : Eff unit :=
  preventDefault ;;
  match isReplyToReviewId p with
  | Some replyTo => dispatch (showReplyToReviewForm replyTo)
  | None =>
      match review p with
      | None =>
          log_debug "Cannot edit a review because no review has been loaded."
      | Some r => dispatch (showEditReviewForm (review_id r))
      end
  end.

Definition onEscapeReviewOverlay (p : PropsType) : Eff unit :=
  match review p with
  | None =>
      log_debug "Cannot hide review form because no review has been loaded."
  | Some r => dispatch (hideEditReviewForm (review_id r))
  end.

Definition onReviewSubmitted (p : PropsType) : Eff unit :=
  match review p with
  | None =>
      log_debug "Cannot hide review form because no review has been loaded."
  | Some r => dispatch (hideEditReviewForm (review_id r))
  end.

Definition onClickToBeginReviewReply (p : PropsType) : Eff unit :=
  preventDefault ;;
  match review p with
  | None =>
      log_debug "Cannot show review form because no review has been loaded."
  | Some r => dispatch (showReplyToReviewForm (review_id r))
  end.

Definition onDismissReviewReply (p : PropsType) : Eff unit :=
  match review p with
  | None =>
      log_debug "Cannot hide review form because no review has been loaded."
  | Some r => dispatch (hideReplyToReviewForm (review_id r))
  end.

Definition onSubmitReviewReply (p : PropsType)
    (reviewData : OnSubmitParams.t) : Eff unit :=
  match review p with
  | None =>
      throw (Error
        "The review property cannot be empty when replying to a review")
  | Some r =>
      dispatch (sendReplyToReview (errorHandler_id (errorHandler p))
                                  (review_id r)
                                  (OnSubmitParams.text reviewData))
  end.

(** *** Rendering *)

(** [review.reply && review.reply.body] *)
Definition reply_body (r : UserReviewType) : option string :=
  match reply r with
  | Some rp => Some (body rp)
  | None => None
  end.

Definition renderReply (p : PropsType) : ReactNode :=
  match review p with
  | None => Null
  | Some r =>
      if negb (defined (reply r)) && negb (replyingToReview p)
      then Null
      else
        Host "div" (Dom.cls "AddonReviewListItem-reply")
          [ Host "h4" (Dom.cls "AddonReviewListItem-reply-header")
              [ Icon "reply-arrow";
                Text (gettext (i18n p) "Developer response") ];
            if replyingToReview p then
              DismissibleTextForm
                {| TextForm.className := "AddonReviewListItem-reply-form";
                   TextForm.isSubmitting :=
                     submittingReply p && negb (hasError (errorHandler p));
                   TextForm.onDismiss := OnDismissReviewReply;
                   TextForm.onSubmit := OnSubmitReviewReply;
                   TextForm.placeholder :=
                     gettext (i18n p) "Write a reply to this review.";
                   TextForm.submitButtonText :=
                     if defined (reply r)
                     then gettext (i18n p) "Update reply"
                     else gettext (i18n p) "Publish reply";
                   TextForm.submitButtonInProgressText :=
                     if defined (reply r)
                     then gettext (i18n p) "Updating reply"
                     else gettext (i18n p) "Publishing reply";
                   TextForm.text := reply_body r |}
            else
              AddonReviewListItem (addon p) (Some (review_id r)) (reply r) ]
  end.

(** [siteUser.id]: reading a property of [undefined] throws. *)
Definition siteUser_id (u : option UserStateType) : Completion (option Z) :=
  match u with
  | Some v => Normal (user_id v)
  | None => Throw (TypeError "Cannot read property 'id' of undefined")
  end.

(** [errorHandler.renderErrorIfPresent()] as a child: what it returns, or
    null. *)
Definition error_node (eh : ErrorHandlerType) : ReactNode :=
  match renderErrorIfPresent eh with
  | Some e => Rendered e
  | None => Null
  end.

Definition reviewBodyClass : string := "AddonReviewListItem-body".

(** The [byline] and [reviewBody] variables that [render] sets first. *)
Definition render_byline (p : PropsType) (isReply : bool) : ReactNode :=
  match review p with
  | Some r =>
      let timestamp := moment_fromNow (i18n p) (created r) in
      if isReply then
        Text (sprintf (i18n p) (gettext (i18n p) "posted %(timestamp)s")
                [("timestamp", timestamp)])
      else
        Text (sprintf (i18n p)
                (gettext (i18n p) "by %(authorName)s, %(timestamp)s")
                [("authorName", userName r); ("timestamp", timestamp)])
  | None => LoadingText
  end.

Definition render_reviewBody (p : PropsType) : ReactNode :=
  match review p with
  | Some r =>
      let reviewBodySanitized := sanitizeHTML (nl2br (body r)) ["br"] in
      Host "p"
        (Dom.mk (Some reviewBodyClass) None None (Some reviewBodySanitized)) []
  | None => Host "p" (Dom.cls reviewBodyClass) [LoadingText]
  end.

(** The block with the edit overlay and the edit link. *)
Definition edit_control (p : PropsType) (isReply : bool)
    (r : UserReviewType) : ReactNode :=
  Host "div" Dom.none
    [ if editingReview p
      then AddonReview OnEscapeReviewOverlay OnReviewSubmitted r
      else Null;
      Host "a"
        (Dom.mk (Some "AddonReviewListItem-edit AddonReviewListItem-control")
                (Some "#edit") (Some OnClickToEditReview) None)
        [ Text (if isReply then gettext (i18n p) "Edit my reply"
                else gettext (i18n p) "Edit my review") ] ].

Definition begin_reply_control (p : PropsType) : ReactNode :=
  Host "a"
    (Dom.mk
       (Some "AddonReviewListItem-begin-reply AddonReviewListItem-control")
       (Some "#reply") (Some OnClickToBeginReviewReply) None)
    [ Icon "reply-arrow"; Text (gettext (i18n p) "Reply to this review") ].

Definition render (p : PropsType) : Completion ReactNode :=
  let isReply := defined (isReplyToReviewId p) in
  let byline := render_byline p isReply in
  let reviewBody := render_reviewBody p in
  editControl ←
    (if isAuthenticated p then
       match review p with
       | Some r =>
           viewer ← siteUser_id (siteUser p);
           if bool_decide (Some (userId r) = viewer)
           then mret (edit_control p isReply r)
           else mret Null
       | None => mret Null
       end
     else mret Null);
  let beginReply :=
    match review p, addon p, siteUser p with
    | Some r, Some a, Some viewer =>
        if negb (replyingToReview p)
           && negb (defined (reply r))
           && isAddonAuthor a (user_id viewer)
           && negb (bool_decide (Some (userId r) = user_id viewer))
        then begin_reply_control p
        else Null
    | _, _, _ => Null
    end in
  mret
    (Host "div" (Dom.cls "AddonReviewListItem")
       [ Host "h3" (Dom.cls "AddonReviewListItem-review-header")
           [ match review p with
             | Some r => Text (title r)
             | None => LoadingText
             end ];
         reviewBody;
         Host "div" (Dom.cls "AddonReviewListItem-byline")
           [ match review p with
             | Some r =>
                 if negb isReply then Rating "small" (rating r) true else Null
             | None => Null
             end;
             byline;
             editControl;
             beginReply ];
         error_node (errorHandler p);
         renderReply p ]).

(** *** Looking into a rendered tree *)

Fixpoint descendants (n : ReactNode) : list ReactNode :=
  n :: match n with
       | Host _ _ children => flat_map descendants children
       | _ => []
       end.

(** Whether an element carries the class among those of its [className]. *)
Definition has_class (c : string) (n : ReactNode) : bool :=
  match n with
  | Host _ props _ =>
      match Dom.className props with
      | Some classes => existsb (String.eqb c) (String.words classes)
      | None => false
      end
  | DismissibleTextForm form =>
      existsb (String.eqb c) (String.words (TextForm.className form))
  | _ => false
  end.

Definition find_class (c : string) (n : ReactNode) : list ReactNode :=
  List.filter (has_class c) (descendants n).

Definition is_link_to (h : Handler) (n : ReactNode) : bool :=
  match n with
  | Host tag props _ =>
      String.eqb tag "a" && bool_decide (Dom.onClick props = Some h)
  | _ => false
  end.

(** The edit affordance: the link of class [AddonReviewListItem-edit]. *)
Definition edit_affordance_shown (c : Completion ReactNode) : bool :=
  match c with
  | Normal t =>
      existsb (is_link_to OnClickToEditReview)
              (find_class "AddonReviewListItem-edit" t)
  | Throw _ => false
  end.

(** The reply-begin affordance: the link of class
    [AddonReviewListItem-begin-reply]. *)
Definition begin_reply_shown (c : Completion ReactNode) : bool :=
  match c with
  | Normal t =>
      existsb (is_link_to OnClickToBeginReviewReply)
              (find_class "AddonReviewListItem-begin-reply" t)
  | Throw _ => false
  end.

(** The reply composer of a rendered tree, when it has one. *)
Definition composer_of (n : ReactNode) : option TextForm.props :=
  match find_class "AddonReviewListItem-reply-form" n with
  | DismissibleTextForm form :: _ => Some form
  | _ => None
  end.

(** The developer-response block: the element of class
    [AddonReviewListItem-reply]. *)
Definition reply_block_shown (n : ReactNode) : bool :=
  match find_class "AddonReviewListItem-reply" n with
  | [] => false
  | _ :: _ => true
  end.

(** The markup set as inner HTML of the body paragraph. *)
Definition body_markup (n : ReactNode) : option string :=
  match find_class reviewBodyClass n with
  | [Host _ props _] => Dom.dangerouslySetInnerHTML props
  | _ => None
  end.

(** *** [mapStateToProps] *)

Definition mapStateToProps (state : StateType) (ownProps : PropsType)
  : StateProps.t :=
  let '(editingReview, replyingToReview, submittingReply) :=
    match review ownProps with
    | Some r =>
        match view (reviews state) !! review_id r with
        | Some v =>
            (ViewState.editingReview v, ViewState.replyingToReview v,
             ViewState.submittingReply v)
        | None => (false, false, false)
        end
    | None => (false, false, false)
    end in
  {| StateProps.editingReview := editingReview;
     StateProps.isAuthenticated := user_isAuthenticated state;
     StateProps.replyingToReview := replyingToReview;
     StateProps.siteUser := user state;
     StateProps.submittingReply := submittingReply |}.

(** *** Handlers by name and more views of a tree *)

(** Calls the class property an element carries as its handler, on the
    props of the instance. [data] is what a composer hands to [onSubmit];
    the other handlers take an event or nothing. *)
Definition fire (h : Handler) (p : PropsType) (data : OnSubmitParams.t)
  : Eff unit :=
  match h with
  | OnClickToEditReview => onClickToEditReview p
  | OnEscapeReviewOverlay => onEscapeReviewOverlay p
  | OnReviewSubmitted => onReviewSubmitted p
  | OnClickToBeginReviewReply => onClickToBeginReviewReply p
  | OnDismissReviewReply => onDismissReviewReply p
  | OnSubmitReviewReply => onSubmitReviewReply p data
  end.

(** The review an action is about: its [reviewId] or [originalReviewId]. *)
Definition action_reviewId (a : Action) : Z :=
  match a with
  | hideEditReviewForm reviewId => reviewId
  | hideReplyToReviewForm reviewId => reviewId
  | sendReplyToReview _ originalReviewId _ => originalReviewId
  | showEditReviewForm reviewId => reviewId
  | showReplyToReviewForm reviewId => reviewId
  end.

(** The elements of a tree that pass a test, in document order. *)
Definition select (f : ReactNode -> bool) (n : ReactNode) : list ReactNode :=
  List.filter f (descendants n).

Definition is_rating (n : ReactNode) : bool :=
  match n with Rating _ _ _ => true | _ => false end.

Definition is_loading (n : ReactNode) : bool :=
  match n with LoadingText => true | _ => false end.

Definition is_overlay (n : ReactNode) : bool :=
  match n with AddonReview _ _ _ => true | _ => false end.

Definition is_item (n : ReactNode) : bool :=
  match n with AddonReviewListItem _ _ _ => true | _ => false end.

Definition is_composer (n : ReactNode) : bool :=
  match n with DismissibleTextForm _ => true | _ => false end.

Definition is_rendered (n : ReactNode) : bool :=
  match n with Rendered _ => true | _ => false end.

(** Whether a DOM element is given its inner HTML as a string. *)
Definition sets_inner_html (n : ReactNode) : bool :=
  match n with
  | Host _ props _ => defined (Dom.dangerouslySetInnerHTML props)
  | _ => false
  end.

(** The [onClick] handlers of the DOM elements of a tree. *)
Definition click_handlers (n : ReactNode) : list Handler :=
  flat_map (fun d => match d with
                     | Host _ props _ =>
                         match Dom.onClick props with
                         | Some h => [h]
                         | None => []
                         end
                     | _ => []
                     end)
           (descendants n).

(** The children of the byline block. *)
Definition byline_children (n : ReactNode) : list ReactNode :=
  match find_class "AddonReviewListItem-byline" n with
  | [Host _ _ children] => children
  | _ => []
  end.

(** The state with another view map. *)
Definition with_view (state : StateType) (v : gmap Z ViewState.t)
  : StateType :=
  {| user := user state; reviews := {| view := v |} |}.

(** The three flags of what [mapStateToProps] returns. *)
Definition view_flags (sp : StateProps.t) : ViewState.t :=
  {| ViewState.editingReview := StateProps.editingReview sp;
     ViewState.replyingToReview := StateProps.replyingToReview sp;
     ViewState.submittingReply := StateProps.submittingReply sp |}.

(** The props of a connected instance: the flags, the viewer and the
    authentication are those [mapStateToProps] returns for the state. *)
Definition connected_to (state : StateType) (p : PropsType) : Prop :=
  let sp := mapStateToProps state p in
  editingReview p = StateProps.editingReview sp
  /\ isAuthenticated p = StateProps.isAuthenticated sp
  /\ replyingToReview p = StateProps.replyingToReview sp
  /\ siteUser p = Some (StateProps.siteUser sp)
  /\ submittingReply p = StateProps.submittingReply sp.

End Component.

(** ** Concrete inputs *)

Module Examples.

(** An add-on given by the identifiers of its authors, with the helpers of
    [Utils] for the body. *)
Definition imports : Imports :=
  {| AddonType := list Z;
     isAddonAuthor := fun a uid =>
       match uid with
       | Some u => bool_decide (u ∈ a)
       | None => false
       end;
     user_isAuthenticated := fun st =>
       bool_decide (is_Some (user_id (user st)));
     nl2br := Utils.nl2br;
     sanitizeHTML := Utils.sanitizeHTML |}.

(** The add-on of author 7. *)
Definition an_addon : @AddonType imports := [7].

Definition i18n0 : I18n :=
  {| gettext := fun s => s;
     sprintf := fun template _ => template;
     moment_fromNow := fun _ => "a moment ago" |}.

Definition handler0 : ErrorHandlerType :=
  {| errorHandler_id := "AddonReviewListItem-1";
     hasError := false;
     renderErrorIfPresent := None |}.

Definition failed_handler : ErrorHandlerType :=
  {| errorHandler_id := "AddonReviewListItem-1";
     hasError := true;
     renderErrorIfPresent := Some (Opaque "ErrorList") |}.

Definition the_reply : UserReviewType :=
  {| review_id := 9; title := "Re: Nice"; body := "Thanks!"; rating := 0;
     userId := 7; userName := "dev"; created := 200; reply := None |}.

(** The review of the spec's example, written by user 3. *)
Definition script_review : UserReviewType :=
  {| review_id := 5; title := "Nice";
     body := "<script>x</script>" +:+ String "010" "hi";
     rating := 4; userId := 3; userName := "ann"; created := 100;
     reply := None |}.

Definition replied_review : UserReviewType :=
  {| review_id := 5; title := "Nice"; body := "hi"; rating := 4; userId := 3;
     userName := "ann"; created := 100; reply := Some the_reply |}.

(** Nothing loaded yet, nobody signed in. *)
Definition loading : @PropsType imports :=
  {| addon := None; editingReview := false; errorHandler := handler0;
     isAuthenticated := false; isReplyToReviewId := None; i18n := i18n0;
     review := None; replyingToReview := false;
     siteUser := Some (mkUser None); submittingReply := false |}.

(** No review, yet the props say a reply is being written. *)
Definition loading_replying : @PropsType imports :=
  {| addon := None; editingReview := false; errorHandler := handler0;
     isAuthenticated := true; isReplyToReviewId := None; i18n := i18n0;
     review := None; replyingToReview := true;
     siteUser := Some (mkUser (Some 7)); submittingReply := false |}.

(** A reply view whose reply has not been loaded. *)
Definition reply_view_loading : @PropsType imports :=
  {| addon := None; editingReview := false; errorHandler := handler0;
     isAuthenticated := true; isReplyToReviewId := Some 5; i18n := i18n0;
     review := None; replyingToReview := false;
     siteUser := Some (mkUser (Some 7)); submittingReply := false |}.

(** The author of the review looks at it. *)
Definition seen_by_author : @PropsType imports :=
  {| addon := Some an_addon; editingReview := false; errorHandler := handler0;
     isAuthenticated := true; isReplyToReviewId := None; i18n := i18n0;
     review := Some script_review; replyingToReview := false;
     siteUser := Some (mkUser (Some 3)); submittingReply := false |}.

(** The author of the add-on looks at a review without a reply. *)
Definition seen_by_developer : @PropsType imports :=
  {| addon := Some an_addon; editingReview := false; errorHandler := handler0;
     isAuthenticated := true; isReplyToReviewId := None; i18n := i18n0;
     review := Some script_review; replyingToReview := false;
     siteUser := Some (mkUser (Some 7)); submittingReply := false |}.

(** The author of the add-on looks at a review they replied to. *)
Definition replied : @PropsType imports :=
  {| addon := Some an_addon; editingReview := false; errorHandler := handler0;
     isAuthenticated := true; isReplyToReviewId := None; i18n := i18n0;
     review := Some replied_review; replyingToReview := false;
     siteUser := Some (mkUser (Some 7)); submittingReply := false |}.

(** A reply is being sent and the error handler holds an error. *)
Definition sending_failed : @PropsType imports :=
  {| addon := Some an_addon; editingReview := false;
     errorHandler := failed_handler; isAuthenticated := true;
     isReplyToReviewId := None; i18n := i18n0;
     review := Some script_review; replyingToReview := true;
     siteUser := Some (mkUser (Some 7)); submittingReply := true |}.

Definition empty_state : StateType :=
  {| user := mkUser (Some 7); reviews := {| view := ∅ |} |}.

(** The author has opened the edit overlay of the review. *)
Definition editing : @PropsType imports :=
  {| addon := Some an_addon; editingReview := true; errorHandler := handler0;
     isAuthenticated := true; isReplyToReviewId := None; i18n := i18n0;
     review := Some script_review; replyingToReview := false;
     siteUser := Some (mkUser (Some 3)); submittingReply := false |}.

(** The props say somebody is signed in, but carry no viewer. *)
Definition viewer_missing : @PropsType imports :=
  {| addon := Some an_addon; editingReview := false; errorHandler := handler0;
     isAuthenticated := true; isReplyToReviewId := None; i18n := i18n0;
     review := Some script_review; replyingToReview := false;
     siteUser := None; submittingReply := false |}.

(** The reply of [replied_review] in its own, nested instance. *)
Definition reply_view : @PropsType imports :=
  {| addon := Some an_addon; editingReview := false; errorHandler := handler0;
     isAuthenticated := true; isReplyToReviewId := Some 5; i18n := i18n0;
     review := Some the_reply; replyingToReview := false;
     siteUser := Some (mkUser (Some 7)); submittingReply := false |}.

(** The developer updates the reply given before. *)
Definition updating_reply : @PropsType imports :=
  {| addon := Some an_addon; editingReview := false; errorHandler := handler0;
     isAuthenticated := true; isReplyToReviewId := None; i18n := i18n0;
     review := Some replied_review; replyingToReview := true;
     siteUser := Some (mkUser (Some 7)); submittingReply := false |}.

(** An error is held while nothing is loaded. *)
Definition loading_failed : @PropsType imports :=
  {| addon := None; editingReview := false; errorHandler := failed_handler;
     isAuthenticated := false; isReplyToReviewId := None; i18n := i18n0;
     review := None; replyingToReview := false;
     siteUser := Some (mkUser None); submittingReply := false |}.

Definition replying_flags : ViewState.t :=
  {| ViewState.editingReview := false; ViewState.replyingToReview := true;
     ViewState.submittingReply := true |}.

End Examples.

(** * Properties *)

(** ** The handlers *)

Section HandlerClaims.
Context `{Imports}.

(** C1. Submitting a reply while the review is absent throws an error and
    neither dispatches nor logs anything; with a review it dispatches exactly
    one send-reply action that carries the error handler's id, the id of the
    original review and the submitted text. *)
Theorem onSubmitReviewReply_throws_or_sends
    (p : PropsType) (reviewData : OnSubmitParams.t) :
  match review p with
  | None =>
      onSubmitReviewReply p reviewData =
        ([], Throw (Error
           "The review property cannot be empty when replying to a review"))
      /\ dispatched (onSubmitReviewReply p reviewData) = []
  | Some r =>
      completion (onSubmitReviewReply p reviewData) = Normal tt
      /\ dispatched (onSubmitReviewReply p reviewData) =
           [sendReplyToReview (errorHandler_id (errorHandler p))
                              (review_id r)
                              (OnSubmitParams.text reviewData)]
  end.
Proof.
  unfold onSubmitReviewReply.
  destruct (review p) as [r|]; split; reflexivity.
Qed.

(** C4. In a reply view ([isReplyToReviewId] defined) a click on the edit
    affordance dispatches one show-reply-form action for that identifier and
    no show-edit-form action, whether or not a review is loaded. *)
Theorem onClickToEditReview_in_reply_view (p : PropsType) (replyTo : Z) :
  isReplyToReviewId p = Some replyTo ->
  completion (onClickToEditReview p) = Normal tt
  /\ dispatched (onClickToEditReview p) = [showReplyToReviewForm replyTo]
  /\ forall reviewId,
       ~ In (showEditReviewForm reviewId) (dispatched (onClickToEditReview p)).
Proof.
  intros Hreply. unfold onClickToEditReview. rewrite Hreply.
  repeat split. intros reviewId [Habs | []]. discriminate Habs.
Qed.

(** Outside a reply view the same click asks for the edit form of the
    loaded review, and only logs while none is loaded. *)
Lemma onClickToEditReview_top_level (p : PropsType) :
  isReplyToReviewId p = None ->
  match review p with
  | None => dispatched (onClickToEditReview p) = []
            /\ logged (onClickToEditReview p) <> []
  | Some r =>
      dispatched (onClickToEditReview p) = [showEditReviewForm (review_id r)]
  end.
Proof.
  intros Htop. unfold onClickToEditReview. rewrite Htop.
  destruct (review p); [reflexivity | split; [reflexivity | discriminate]].
Qed.

(** C6. Cancel-edit, commit-edit, begin-reply and cancel-reply: without a
    review each returns normally, logs, and dispatches nothing; with a review
    each dispatches exactly one action for the review's id (hide-edit-form,
    hide-edit-form, show-reply-form, hide-reply-form). *)
Theorem guarded_handlers_log_or_dispatch (p : PropsType) :
  let runs := [onEscapeReviewOverlay p; onReviewSubmitted p;
               onClickToBeginReviewReply p; onDismissReviewReply p] in
  Forall (fun run => completion run = Normal tt) runs
  /\ match review p with
     | None =>
         Forall (fun run => dispatched run = [] /\ logged run <> []) runs
     | Some r =>
         map dispatched runs =
           [[hideEditReviewForm (review_id r)];
            [hideEditReviewForm (review_id r)];
            [showReplyToReviewForm (review_id r)];
            [hideReplyToReviewForm (review_id r)]]
     end.
Proof.
  unfold onEscapeReviewOverlay, onReviewSubmitted, onClickToBeginReviewReply,
    onDismissReviewReply.
  destruct (review p) as [r|]; cbn; split;
    repeat constructor; discriminate.
Qed.

End HandlerClaims.

(** ** All handlers at once *)

Section HandlerExtras.
Context `{Imports}.

(** Runs a handler on both cases of [isReplyToReviewId] and [review]. *)
Ltac run_handlers p :=
  unfold fire, onClickToEditReview, onEscapeReviewOverlay, onReviewSubmitted,
    onClickToBeginReviewReply, onDismissReviewReply, onSubmitReviewReply;
  destruct (isReplyToReviewId p) as [replyTo|], (review p) as [r|]; cbn.

(** X1. Outside a reply view a click on the edit affordance returns
    normally and never asks for a reply form: with a review it dispatches
    exactly one show-edit-form for the review's id and logs nothing, without
    one it only logs that no review has been loaded. *)
Theorem onClickToEditReview_top_level_run (p : PropsType) :
  isReplyToReviewId p = None ->
  completion (onClickToEditReview p) = Normal tt
  /\ (forall reviewId,
        ~ In (showReplyToReviewForm reviewId)
             (dispatched (onClickToEditReview p)))
  /\ match review p with
     | Some r =>
         dispatched (onClickToEditReview p) =
           [showEditReviewForm (review_id r)]
         /\ logged (onClickToEditReview p) = []
     | None =>
         dispatched (onClickToEditReview p) = []
         /\ logged (onClickToEditReview p) =
              ["Cannot edit a review because no review has been loaded."]
     end.
Proof.
  intros Htop. unfold onClickToEditReview. rewrite Htop.
  destruct (review p) as [r|]; cbn; repeat split; try reflexivity;
    intros reviewId Hin; repeat destruct Hin as [Hin|Hin]; try discriminate Hin;
    contradiction.
Qed.

(** X2. Whatever the props, a handler dispatches at most one action and
    never both logs and dispatches. The action is about the loaded review, or,
    for the edit click only, about the review named by [isReplyToReviewId]. *)
Theorem handlers_dispatch_at_most_once
    (h : Handler) (p : PropsType) (data : OnSubmitParams.t) :
  (length (dispatched (fire h p data)) <= 1)%nat
  /\ (dispatched (fire h p data) = [] \/ logged (fire h p data) = [])
  /\ (forall a, In a (dispatched (fire h p data)) ->
      (h = OnClickToEditReview
       /\ isReplyToReviewId p = Some (action_reviewId a))
      \/ exists r, review p = Some r /\ action_reviewId a = review_id r).
Proof.
  destruct h; run_handlers p;
    (split; [lia | split; [auto|]]);
    intros a Hin; cbn in Hin;
    repeat (destruct Hin as [Hin|Hin]; [subst a|]); try contradiction;
    cbn; eauto.
Qed.

(** X3. A handler dispatches nothing exactly when no review is loaded,
    but for the edit click in a reply view, which dispatches without one. *)
Theorem handlers_dispatch_nothing_iff
    (h : Handler) (p : PropsType) (data : OnSubmitParams.t) :
  dispatched (fire h p data) = [] <->
  review p = None
  /\ (h = OnClickToEditReview -> isReplyToReviewId p = None).
Proof.
  destruct h; run_handlers p; split;
    try (intros Hnil; discriminate Hnil);
    try (intros [Hr _]; discriminate Hr);
    try (intros [_ Hedit]; specialize (Hedit eq_refl); discriminate Hedit);
    try (intros _; reflexivity);
    (intros _; split; [reflexivity|];
     intros Hh; first [discriminate Hh | reflexivity]).
Qed.

(** X4. The only handler that can throw is the submission of a reply, and
    it throws exactly when no review is loaded. *)
Theorem fire_throws_iff
    (h : Handler) (p : PropsType) (data : OnSubmitParams.t) :
  (exists e, completion (fire h p data) = Throw e) <->
  h = OnSubmitReviewReply /\ review p = None.
Proof.
  destruct h; run_handlers p; split;
    try (intros [e He]; discriminate He);
    try (intros [Hh Hr]; first [discriminate Hh | discriminate Hr]);
    try (intros _; split; reflexivity);
    intros _; eexists; reflexivity.
Qed.

(** X5. The two click handlers prevent the default of their event once,
    before anything else and also when they go on to return early; the other
    handlers never do. *)
Theorem preventDefault_first
    (h : Handler) (p : PropsType) (data : OnSubmitParams.t) :
  match h with
  | OnClickToEditReview | OnClickToBeginReviewReply =>
      exists rest, fst (fire h p data) = PreventDefault :: rest
                   /\ ~ In PreventDefault rest
  | _ => ~ In PreventDefault (fst (fire h p data))
  end.
Proof.
  destruct h; run_handlers p;
    try (eexists; split; [reflexivity|]);
    intros Hin; repeat destruct Hin as [Hin|Hin]; try discriminate Hin;
    contradiction.
Qed.

End HandlerExtras.

(** ** The sanitizer of [Utils] *)

Section SanitizerFacts.

Lemma append_assoc (s t u : string) : (s +:+ t) +:+ u = s +:+ (t +:+ u).
Proof.
  induction s as [|c s IH]; [reflexivity|].
  change (String c ((s +:+ t) +:+ u) = String c (s +:+ (t +:+ u))).
  now rewrite IH.
Qed.

Lemma append_empty_r (s : string) : s +:+ EmptyString = s.
Proof.
  induction s as [|c s IH]; [reflexivity|].
  change (String c (s +:+ EmptyString) = String c s). now rewrite IH.
Qed.

Lemma gt_free_snoc (s : string) (c : ascii) :
  Utils.gt_free s -> c <> ">"%char ->
  Utils.gt_free (s +:+ String c EmptyString).
Proof.
  induction s as [|d s IH]; intros Hs Hc.
  - split; [exact Hc | exact I].
  - destruct Hs as [Hd Hs]. split; [exact Hd | exact (IH Hs Hc)].
Qed.

Lemma tag_name_idem (s : string) :
  Utils.tag_name (Utils.tag_name s) = Utils.tag_name s.
Proof.
  induction s as [|c s IH]; [reflexivity|]. simpl.
  destruct (Ascii.is_space c || Ascii.eqb c "/") eqn:Hstop; [reflexivity|].
  simpl. now rewrite Hstop, IH.
Qed.

Lemma tag_name_gt_free (s : string) :
  Utils.gt_free s -> Utils.gt_free (Utils.tag_name s).
Proof.
  induction s as [|c s IH]; [trivial|]. intros [Hc Hs]. simpl.
  destruct (Ascii.is_space c || Ascii.eqb c "/"); [exact I|].
  split; [exact Hc | exact (IH Hs)].
Qed.

Lemma tag_of_wf (inner : string) :
  Utils.gt_free inner -> Utils.wf_token (Utils.tag_of inner).
Proof.
  destruct inner as [|c rest]; [intros _; split; [reflexivity | exact I]|].
  intros Hfree. unfold Utils.tag_of.
  destruct (Ascii.eqb c "/").
  - destruct Hfree as [_ Hrest].
    split; [apply tag_name_idem | apply tag_name_gt_free, Hrest].
  - split; [apply tag_name_idem | apply tag_name_gt_free, Hfree].
Qed.

(** Every token [lex] produces reads back as printed. *)
Lemma lex_wf (s : string) (st : Utils.LexState) :
  Utils.wf_state st -> Forall Utils.wf_token (Utils.lex st s).
Proof.
  revert st. induction s as [|c s IH]; intros st Hst; [constructor|].
  destruct st as [|inner]; simpl.
  - destruct (Ascii.eqb_spec c "<") as [->|Hc].
    + apply IH. exact I.
    + constructor; [exact Hc | apply IH; exact I].
  - destruct (Ascii.eqb_spec c ">") as [->|Hc].
    + constructor; [apply tag_of_wf, Hst | apply IH; exact I].
    + apply IH. apply gt_free_snoc; assumption.
Qed.

Lemma strip_Forall (P : Utils.Token -> Prop) (allowedTags : list string)
    (ts : list Utils.Token) (in_script : bool) :
  Forall P ts -> Forall P (Utils.strip allowedTags in_script ts).
Proof.
  intros Hts. revert in_script.
  induction Hts as [|t ts Ht Hts IH]; intros in_script; [constructor|].
  simpl. destruct in_script, t as [c|closing name];
    repeat match goal with
    | |- context [if ?b then _ else _] => destruct b
    end; auto.
Qed.

(** Inside a tag, [lex] reads a name without [>] up to the closing [>]. *)
Lemma lex_inside (name inner rest : string) :
  Utils.gt_free name ->
  Utils.lex (Utils.Inside inner) (name +:+ String ">" rest) =
    Utils.tag_of (inner +:+ name) :: Utils.lex Utils.Outside rest.
Proof.
  revert inner. induction name as [|c name IH]; intros inner Hfree.
  - rewrite append_empty_r. reflexivity.
  - destruct Hfree as [Hc Hfree].
    change (String c name +:+ String ">" rest)
      with (String c (name +:+ String ">" rest)).
    simpl. destruct (Ascii.eqb_spec c ">") as [->|_]; [contradiction|].
    rewrite (IH _ Hfree), append_assoc. reflexivity.
Qed.

Lemma tag_of_bare (name : string) :
  Utils.tag_name name = name ->
  Utils.tag_of name = Utils.TTag false name
  /\ Utils.tag_of (String "/" name) = Utils.TTag true name.
Proof.
  intros Hbare. split.
  - destruct name as [|c name]; [reflexivity|].
    unfold Utils.tag_of. destruct (Ascii.eqb c "/") eqn:Hc.
    + simpl in Hbare. rewrite Hc, orb_true_r in Hbare. discriminate.
    + now rewrite Hbare.
  - unfold Utils.tag_of. simpl. now rewrite Hbare.
Qed.

Lemma print_tag_shape (closing : bool) (name rest : string) :
  Utils.print_token (Utils.TTag closing name) +:+ rest =
    String "<" ((if closing then "/" else EmptyString) +:+ name
                +:+ String ">" rest).
Proof.
  transitivity
    (String "<" ((if closing then "/" else EmptyString) +:+ (name +:+ ">")
                 +:+ rest)).
  - destruct closing; reflexivity.
  - destruct closing; rewrite append_assoc; reflexivity.
Qed.

Lemma lex_print_token (t : Utils.Token) (rest : string) :
  Utils.wf_token t ->
  Utils.lex Utils.Outside (Utils.print_token t +:+ rest) =
    t :: Utils.lex Utils.Outside rest.
Proof.
  destruct t as [c|closing name].
  - intros Hc. change (Utils.print_token (Utils.TChar c) +:+ rest)
      with (String c rest).
    simpl. destruct (Ascii.eqb_spec c "<") as [->|_]; [contradiction|].
    reflexivity.
  - intros [Hbare Hfree]. destruct (tag_of_bare name Hbare) as [Hopen Hclose].
    rewrite print_tag_shape. destruct closing.
    + change (Utils.lex Utils.Outside
                (String "<" ("/" +:+ name +:+ String ">" rest)))
        with (Utils.lex (Utils.Inside (String "/" EmptyString))
                (name +:+ String ">" rest)).
      rewrite (lex_inside name _ rest Hfree).
      change (String "/" EmptyString +:+ name) with (String "/" name).
      now rewrite Hclose.
    + change (Utils.lex Utils.Outside
                (String "<" (EmptyString +:+ name +:+ String ">" rest)))
        with (Utils.lex (Utils.Inside EmptyString)
                (name +:+ String ">" rest)).
      rewrite (lex_inside name _ rest Hfree).
      change (EmptyString +:+ name) with name.
      now rewrite Hopen.
Qed.

(** Printing well-formed tokens and reading them back gives the tokens. *)
Lemma lex_print (ts : list Utils.Token) :
  Forall Utils.wf_token ts -> Utils.lex Utils.Outside (Utils.print ts) = ts.
Proof.
  induction 1 as [|t ts Ht Hts IH]; [reflexivity|].
  simpl. rewrite (lex_print_token t _ Ht), IH. reflexivity.
Qed.

Lemma strip_keeps_allowed (allowedTags : list string)
    (ts : list Utils.Token) (in_script : bool) (name : string) :
  name ∈ Utils.tag_names (Utils.strip allowedTags in_script ts) ->
  name ∈ allowedTags.
Proof.
  revert in_script. induction ts as [|t ts IH]; intros in_script; simpl.
  - intros Hin. inversion Hin.
  - destruct in_script, t as [c|closing tag]; simpl;
      repeat match goal with
      | |- context [if ?b then _ else _] => destruct b eqn:?
      end; simpl; eauto.
    intros Hin. apply elem_of_cons in Hin as [->|Hin]; [|eauto].
    unfold Utils.allowed in *. now apply bool_decide_eq_true in Heqb.
Qed.

(** What the sanitizer lets through: the tags of its output are tags of
    the allow-list. *)
Lemma sanitizeHTML_allowed_only (text : string) (allowedTags : list string)
    (name : string) :
  name ∈ Utils.tags_of (Utils.sanitizeHTML text allowedTags) ->
  name ∈ allowedTags.
Proof.
  unfold Utils.tags_of, Utils.sanitizeHTML.
  rewrite lex_print by (apply strip_Forall, lex_wf; exact I).
  apply strip_keeps_allowed.
Qed.

End SanitizerFacts.

(** ** Rendering *)

(** Breaks a hypothesis made of conjunctions and existentials into its
    parts. *)
Ltac decompose_ex_and H :=
  repeat match type of H with
  | _ /\ _ => let H1 := fresh H in destruct H as [H1 H]; decompose_ex_and H1
  | ex _ => let x := fresh "x" in destruct H as [x H]
  end.

Section RenderClaims.
Context `{Imports}.

(** Takes the props apart and splits on every input a rendered tree
    branches on, so that the tree is closed up to its texts. *)
Ltac split_props p :=
  destruct p as [addon0 editing0 eh0 auth0 replyTo0 i18n0 review0 replying0
                 viewer0 submitting0];
  cbn [addon editingReview errorHandler isAuthenticated isReplyToReviewId
       i18n review replyingToReview siteUser submittingReply] in *;
  destruct eh0 as [ehid0 hasError0 [rendered0|]];
  destruct review0 as [[rid0 title0 body0 rating0 author0 name0 created0
                        [reply0|]]|];
  destruct addon0 as [a0|], viewer0 as [[uid0]|], replyTo0 as [to0|],
    auth0, editing0, replying0.

(** The same for [renderReply], which looks at the review, its reply and
    [replyingToReview] only. *)
Ltac split_reply p :=
  destruct p as [addon0 editing0 eh0 auth0 replyTo0 i18n0 review0 replying0
                 viewer0 submitting0];
  cbn [addon editingReview errorHandler isAuthenticated isReplyToReviewId
       i18n review replyingToReview siteUser submittingReply] in *;
  destruct eh0 as [ehid0 hasError0 rendered0];
  destruct review0 as [[rid0 title0 body0 rating0 author0 name0 created0
                        [reply0|]]|];
  destruct replying0.

Ltac settle_author :=
  repeat match goal with
  | |- context [isAddonAuthor ?a ?u] => destruct (isAddonAuthor a u) eqn:?
  end.

(** Evaluates the boolean on the left of the goal. *)
Ltac eval_shown :=
  match goal with
  | |- ?b = _ => let v := eval vm_compute in b in change b with v
  | |- ?b = _ <-> _ =>
      let v := eval vm_compute in b in change b with v
  end.

Ltac eval_composer :=
  match goal with
  | |- context [composer_of ?n] =>
      let v := eval vm_compute in (composer_of n) in
      change (composer_of n) with v
  end.

Ltac by_cases p :=
  split_props p; unfold render in *;
  cbn [mbind mret Completion_bind Completion_ret cbind siteUser_id user_id
       userId addon editingReview errorHandler isAuthenticated
       isReplyToReviewId i18n review replyingToReview siteUser
       submittingReply] in *;
  repeat case_bool_decide; settle_author;
  unfold mret, Completion_ret in *; cbn [mbind Completion_bind cbind] in *.

Ltac settle_iff :=
  split;
  [ intros Hshown; try discriminate Hshown;
    repeat first [ split | eexists ]; cbn; congruence
  | intros Hcond; try reflexivity; exfalso;
    decompose_ex_and Hcond; simplify_eq/=; congruence ].

(** C3. The edit affordance is rendered exactly when the viewer is
    authenticated, the review is present and the review's author id is the
    viewer's id. *)
Theorem edit_affordance_iff (p : PropsType) :
  edit_affordance_shown (render p) = true <->
  isAuthenticated p = true
  /\ exists r viewer,
       review p = Some r /\ siteUser p = Some viewer
       /\ user_id viewer = Some (userId r).
Proof.
  by_cases p; eval_shown; settle_iff.
Qed.

(** C2. The reply-begin affordance is rendered exactly when review, add-on
    and viewer are present, no reply is being written, the review has no
    reply, the viewer is an author of the add-on and did not write the
    review. In particular it is never rendered for a review with a reply. *)
Theorem begin_reply_affordance_iff (p : PropsType) :
  (begin_reply_shown (render p) = true <->
   exists r a viewer,
     review p = Some r /\ addon p = Some a /\ siteUser p = Some viewer
     /\ replyingToReview p = false /\ reply r = None
     /\ isAddonAuthor a (user_id viewer) = true
     /\ user_id viewer <> Some (userId r))
  /\ (forall r rp, review p = Some r -> reply r = Some rp ->
      begin_reply_shown (render p) = false).
Proof.
  assert (Hiff : begin_reply_shown (render p) = true <->
    exists r a viewer,
      review p = Some r /\ addon p = Some a /\ siteUser p = Some viewer
      /\ replyingToReview p = false /\ reply r = None
      /\ isAddonAuthor a (user_id viewer) = true
      /\ user_id viewer <> Some (userId r)).
  { by_cases p; eval_shown; settle_iff. }
  split; [exact Hiff|].
  intros r rp Hr Hrp.
  destruct (begin_reply_shown (render p)); [exfalso | reflexivity].
  destruct Hiff as [Hshown _].
  destruct (Hshown eq_refl) as (r' & _ & _ & Hr' & _ & _ & _ & Hnone & _).
  congruence.
Qed.

(** C8. Without a review, title, byline and body are loading placeholders
    and neither the edit nor the reply-begin affordance is rendered, whatever
    the authentication state. *)
Theorem render_while_loading (p : PropsType) :
  review p = None ->
  render p =
    Normal
      (Host "div" (Dom.cls "AddonReviewListItem")
         [ Host "h3" (Dom.cls "AddonReviewListItem-review-header")
             [LoadingText];
           Host "p" (Dom.cls "AddonReviewListItem-body") [LoadingText];
           Host "div" (Dom.cls "AddonReviewListItem-byline")
             [Null; LoadingText; Null; Null];
           error_node (errorHandler p);
           Null ])
  /\ edit_affordance_shown (render p) = false
  /\ begin_reply_shown (render p) = false.
Proof.
  intros Hnone.
  split_props p; try discriminate Hnone; repeat split; vm_compute; reflexivity.
Qed.

(** The developer-response block of a rendered item is the one
    [renderReply] returns. *)
Lemma render_includes_reply_block (p : PropsType) (t : ReactNode) :
  render p = Normal t ->
  reply_block_shown t = reply_block_shown (renderReply p).
Proof.
  by_cases p; intros Ht; simplify_eq; vm_compute; reflexivity.
Qed.

(** C5, as amended. The developer-response block is rendered exactly when
    the review is present and it has a reply or a reply is being written. *)
Theorem reply_block_iff (p : PropsType) :
  reply_block_shown (renderReply p) = true <->
  exists r, review p = Some r
            /\ (is_Some (reply r) \/ replyingToReview p = true).
Proof.
  split_reply p; unfold renderReply; eval_shown; split;
    try (intros Hshown; discriminate Hshown);
    try (intros _; reflexivity);
    try (intros _; eexists; split; [reflexivity|]; cbn;
         first [left; eexists; reflexivity | right; reflexivity]);
    intros (r & Hr & [[rp Hrp] | Hreplying]); simplify_eq/=.
Qed.

(** In the connected component [replyingToReview] comes from
    [mapStateToProps] and is false without a review; there the flag or an
    existing reply decides alone. *)
Lemma connected_reply_block (state : StateType) (p : PropsType) :
  replyingToReview p = StateProps.replyingToReview (mapStateToProps state p) ->
  reply_block_shown (renderReply p) = true <->
  (exists r, review p = Some r /\ is_Some (reply r))
  \/ replyingToReview p = true.
Proof.
  unfold mapStateToProps.
  split_reply p; cbn [review StateProps.replyingToReview]; intros Hconn;
    try discriminate Hconn; clear Hconn;
    unfold renderReply; eval_shown; split;
    try (intros Hshown; discriminate Hshown);
    try (intros _; reflexivity);
    try (intros _; right; reflexivity);
    try (intros _; left; eexists; split; [reflexivity | eexists; reflexivity]);
    intros [(r & Hr & [rp Hrp]) | Hreplying]; simplify_eq/=.
Qed.

(** In a review with a reply that is not being rewritten, the block holds a
    nested item for the reply; its [isReplyToReviewId] is the id of the
    review replied to. *)
Lemma renderReply_nested_item (p : PropsType) (r rp : UserReviewType) :
  review p = Some r -> reply r = Some rp -> replyingToReview p = false ->
  In (AddonReviewListItem (addon p) (Some (review_id r)) (Some rp))
     (descendants (renderReply p)).
Proof.
  intros Hr Hrp Hreplying. unfold renderReply.
  rewrite Hr, Hrp, Hreplying. cbn. auto 10.
Qed.

(** C10. The reply composer is there exactly when the review is present
    and a reply is being written; it then reports a submission in progress
    exactly when [submittingReply] holds and the error handler has no error. *)
Theorem composer_isSubmitting_iff (p : PropsType) :
  (is_Some (composer_of (renderReply p)) <->
   is_Some (review p) /\ replyingToReview p = true)
  /\ (forall form, composer_of (renderReply p) = Some form ->
      (TextForm.isSubmitting form = true <->
       submittingReply p = true /\ hasError (errorHandler p) = false)).
Proof.
  split.
  - split_reply p; unfold renderReply; eval_composer; split;
      try (intros [form Hform]; discriminate Hform);
      try (intros _; split; [eexists|]; reflexivity);
      try (intros _; eexists; reflexivity);
      intros [[r Hr] Hreplying]; simplify_eq.
  - intros form.
    split_reply p; unfold renderReply; eval_composer;
      intros Hform; simplify_eq/=;
      destruct submitting0, hasError0; cbn; intuition congruence.
Qed.

(** With any [nl2br] and [sanitizeHTML], the body paragraph of a rendered
    review has [sanitizeHTML(nl2br(review.body), ['br'])] as its inner HTML. *)
Lemma body_markup_of_review (p : PropsType) (r : UserReviewType)
    (t : ReactNode) :
  review p = Some r -> render p = Normal t ->
  body_markup t = Some (sanitizeHTML (nl2br (body r)) ["br"]).
Proof.
  by_cases p; intros Hr Ht; simplify_eq; reflexivity.
Qed.

(** A review renders unless the viewer is missing while the props say that
    somebody is signed in. *)
Lemma render_returns (p : PropsType) :
  is_Some (siteUser p) \/ isAuthenticated p = false \/ review p = None ->
  exists t, render p = Normal t.
Proof.
  by_cases p; intros [[u Hu] | [Hauth | Hr]]; simplify_eq; eexists; reflexivity.
Qed.


(** *** What else a rendered item shows *)

(** X6. [render] throws exactly when the props say somebody is signed in, a
    review is loaded and no viewer is given; what it throws is the
    [TypeError] of reading [siteUser.id]. *)
Theorem render_throws_iff (p : PropsType) :
  ((exists e, render p = Throw e) <->
   isAuthenticated p = true /\ is_Some (review p) /\ siteUser p = None)
  /\ (forall e, render p = Throw e -> exists message, e = TypeError message).
Proof.
  split.
  - by_cases p; split;
      try (intros [e He]; discriminate He);
      try (intros (Hauth & [r Hr] & Hviewer);
           first [discriminate Hauth | discriminate Hr | discriminate Hviewer]);
      try (intros _; eexists; reflexivity);
      (intros _; repeat split; eexists; reflexivity).
  - by_cases p; intros e He; simplify_eq; eexists; reflexivity.
Qed.

(** X7. No viewer is offered both the edit and the reply-begin affordance. *)
Theorem affordances_exclusive (p : PropsType) :
  edit_affordance_shown (render p) && begin_reply_shown (render p) = false.
Proof.
  by_cases p; eval_shown; reflexivity.
Qed.

(** X8. The rating is rendered once, small and read-only, for a loaded review
    outside a reply view, and not at all otherwise. *)
Theorem rating_rendered (p : PropsType) (t : ReactNode) :
  render p = Normal t ->
  select is_rating t =
    match review p with
    | Some r =>
        if defined (isReplyToReviewId p) then []
        else [Rating "small" (rating r) true]
    | None => []
    end.
Proof.
  by_cases p; intros Ht; simplify_eq; vm_compute; reflexivity.
Qed.

(** X9. The byline of a loaded review: in a reply view the posted-template
    with the relative time only, otherwise the by-template with the author's
    name and the relative time. *)
Theorem byline_rendered (p : PropsType) (r : UserReviewType)
    (t : ReactNode) :
  render p = Normal t -> review p = Some r ->
  let timestamp := moment_fromNow (i18n p) (created r) in
  nth_error (byline_children t) 1 =
    Some (Text
      (if defined (isReplyToReviewId p) then
         sprintf (i18n p) (gettext (i18n p) "posted %(timestamp)s")
           [("timestamp", timestamp)]
       else
         sprintf (i18n p) (gettext (i18n p) "by %(authorName)s, %(timestamp)s")
           [("authorName", userName r); ("timestamp", timestamp)])).
Proof.
  by_cases p; intros Ht Hr; simplify_eq; vm_compute; reflexivity.
Qed.

(** X10. A loaded review renders without any loading placeholder; an item
    without review renders three. *)
Theorem placeholders_rendered (p : PropsType) (t : ReactNode) :
  render p = Normal t ->
  length (select is_loading t) = if defined (review p) then 0%nat else 3%nat.
Proof.
  by_cases p; intros Ht; simplify_eq; vm_compute; reflexivity.
Qed.

(** X11. The only element given raw HTML is the body paragraph of a loaded
    review, with the sanitized body and no children; the title is rendered as
    text. *)
Theorem inner_html_only_in_body (p : PropsType) (t : ReactNode) :
  render p = Normal t ->
  match review p with
  | Some r =>
      select sets_inner_html t =
        [Host "p" (Dom.mk (Some reviewBodyClass) None None
                     (Some (sanitizeHTML (nl2br (body r)) ["br"]))) []]
      /\ find_class "AddonReviewListItem-review-header" t =
           [Host "h3" (Dom.cls "AddonReviewListItem-review-header")
              [Text (title r)]]
  | None => select sets_inner_html t = []
  end.
Proof.
  by_cases p; intros Ht; simplify_eq; try split; vm_compute; reflexivity.
Qed.

(** X12. What the error handler renders is part of every rendered item, loaded
    or not, exactly once. *)
Theorem error_rendered (p : PropsType) (t : ReactNode) :
  render p = Normal t ->
  select is_rendered t =
    match renderErrorIfPresent (errorHandler p) with
    | Some e => [Rendered e]
    | None => []
    end.
Proof.
  by_cases p; intros Ht; simplify_eq; vm_compute; reflexivity.
Qed.

(** X13. The edit overlay is rendered, once and for the loaded review, exactly
    when [editingReview] holds and the edit affordance is shown. *)
Theorem overlay_rendered (p : PropsType) (t : ReactNode) :
  render p = Normal t ->
  select is_overlay t =
    match review p with
    | Some r =>
        if editingReview p && edit_affordance_shown (Normal t)
        then [AddonReview OnEscapeReviewOverlay OnReviewSubmitted r]
        else []
    | None => []
    end.
Proof.
  by_cases p; intros Ht; simplify_eq; vm_compute; reflexivity.
Qed.

(** X14. Every link of a rendered item is live: its handler, called on the same
    props, prevents the default and dispatches exactly one action. *)
Theorem rendered_links_dispatch (p : PropsType) (t : ReactNode)
    (data : OnSubmitParams.t) :
  render p = Normal t ->
  Forall (fun h => exists a,
            fire h p data = ([PreventDefault; Dispatch a], Normal tt))
         (click_handlers t).
Proof.
  by_cases p; intros Ht; simplify_eq;
    match goal with
    | |- Forall _ ?l => let v := eval vm_compute in l in change l with v
    end;
    repeat constructor; eexists; reflexivity.
Qed.

(** *** What else the reply block holds *)

(** X15. The reply block holds a nested item exactly for a review with a reply
    that is not being rewritten; the item gets the add-on, the id of the review
    as [isReplyToReviewId] and the reply as its review. Composer and nested
    item never come together. *)
Theorem nested_item_rendered (p : PropsType) :
  select is_item (renderReply p) =
    match review p with
    | Some r =>
        match reply r with
        | Some rp =>
            if replyingToReview p then []
            else [AddonReviewListItem (addon p) (Some (review_id r)) (Some rp)]
        | None => []
        end
    | None => []
    end
  /\ (select is_item (renderReply p) = []
      \/ select is_composer (renderReply p) = []).
Proof.
  split_reply p; unfold renderReply; split; try (vm_compute; reflexivity);
    first [left; vm_compute; reflexivity | right; vm_compute; reflexivity].
Qed.

(** X16. A click on the edit link of the nested reply item asks for the reply
    form of the review replied to: the item's [isReplyToReviewId] is that
    review's id, whatever else the nested instance gets as props. *)
Theorem edit_of_reply_opens_parent_form
    (p p' : PropsType) (a : option AddonType) (i : option Z)
    (rv : option UserReviewType) (data : OnSubmitParams.t) :
  In (AddonReviewListItem a i rv) (descendants (renderReply p)) ->
  isReplyToReviewId p' = i ->
  exists r,
    review p = Some r /\ rv = reply r /\ is_Some rv
    /\ fire OnClickToEditReview p' data =
         ([PreventDefault; Dispatch (showReplyToReviewForm (review_id r))],
          Normal tt).
Proof.
  intros Hin Hto. unfold fire, onClickToEditReview. rewrite Hto. clear Hto.
  split_reply p; unfold renderReply in Hin; cbn in Hin;
    repeat (destruct Hin as [Hin|Hin]; try discriminate Hin);
    try contradiction;
    simplify_eq; eexists; repeat split; eexists; reflexivity.
Qed.

(** X17. The composer of a review without reply offers to publish and starts
    empty; that of a review with a reply offers to update and starts from the
    body of the reply. *)
Theorem composer_labels (p : PropsType) (r : UserReviewType)
    (form : TextForm.props) :
  composer_of (renderReply p) = Some form -> review p = Some r ->
  TextForm.text form = body <$> reply r
  /\ TextForm.submitButtonText form =
       gettext (i18n p)
         (if defined (reply r) then "Update reply" else "Publish reply")
  /\ TextForm.submitButtonInProgressText form =
       gettext (i18n p)
         (if defined (reply r) then "Updating reply" else "Publishing reply").
Proof.
  split_reply p; unfold renderReply; eval_composer;
    intros Hform Hr; simplify_eq/=; repeat split.
Qed.

(** X18. The handlers of a rendered composer never hit their guards: on the
    same props submitting sends the reply without throwing, and dismissing
    hides the reply form. *)
Theorem composer_handlers_live (p : PropsType) (form : TextForm.props)
    (data : OnSubmitParams.t) :
  composer_of (renderReply p) = Some form ->
  exists r,
    review p = Some r
    /\ fire (TextForm.onSubmit form) p data =
         ([Dispatch (sendReplyToReview (errorHandler_id (errorHandler p))
                       (review_id r) (OnSubmitParams.text data))],
          Normal tt)
    /\ fire (TextForm.onDismiss form) p data =
         ([Dispatch (hideReplyToReviewForm (review_id r))], Normal tt).
Proof.
  split_reply p; unfold renderReply; eval_composer;
    intros Hform; simplify_eq/=; eexists; repeat split.
Qed.

(** *** Connected instances *)

(** Without the two flags no form is rendered. *)
Lemma no_forms_without_flags (p : PropsType) (t : ReactNode) :
  editingReview p = false -> replyingToReview p = false ->
  render p = Normal t ->
  select is_overlay t = [] /\ select is_composer t = [].
Proof.
  by_cases p; intros Hediting Hreplying Ht; simplify_eq;
    split; vm_compute; reflexivity.
Qed.

(** X19. An instance connected to a state that has no entry for its review (or
    that has no review) renders, and renders neither the edit overlay nor the
    reply composer. *)
Theorem connected_default_view (state : StateType) (p : PropsType) :
  connected_to state p ->
  (forall r, review p = Some r ->
             view (reviews state) !! review_id r = None) ->
  exists t, render p = Normal t
            /\ select is_overlay t = [] /\ select is_composer t = [].
Proof.
  intros (Hediting & _ & Hreplying & Hviewer & _) Hentry.
  destruct (render_returns p) as [t Ht].
  { left. rewrite Hviewer. eexists. reflexivity. }
  exists t. split; [exact Ht|].
  apply (no_forms_without_flags p t); [| |exact Ht].
  - rewrite Hediting. unfold mapStateToProps.
    destruct (review p) as [r|]; [|reflexivity].
    rewrite (Hentry r eq_refl). reflexivity.
  - rewrite Hreplying. unfold mapStateToProps.
    destruct (review p) as [r|]; [|reflexivity].
    rewrite (Hentry r eq_refl). reflexivity.
Qed.

End RenderClaims.

(** ** [mapStateToProps] *)

Section StateClaims.
Context `{Imports}.

(** C9. Without an entry of the view map for the review's id, or without
    a review, the three derived flags are false. *)
Theorem mapStateToProps_defaults (state : StateType) (ownProps : PropsType) :
  (review ownProps = None
   \/ exists r, review ownProps = Some r
                /\ view (reviews state) !! review_id r = None) ->
  StateProps.editingReview (mapStateToProps state ownProps) = false
  /\ StateProps.replyingToReview (mapStateToProps state ownProps) = false
  /\ StateProps.submittingReply (mapStateToProps state ownProps) = false.
Proof.
  unfold mapStateToProps.
  intros [Hnone | (r & Hr & Hview)].
  - rewrite Hnone. repeat split.
  - rewrite Hr, Hview. repeat split.
Qed.

(** With an entry the flags are those of the entry. *)
Lemma mapStateToProps_entry (state : StateType) (ownProps : PropsType)
    (r : UserReviewType) (v : ViewState.t) :
  review ownProps = Some r -> view (reviews state) !! review_id r = Some v ->
  mapStateToProps state ownProps =
    {| StateProps.editingReview := ViewState.editingReview v;
       StateProps.isAuthenticated := user_isAuthenticated state;
       StateProps.replyingToReview := ViewState.replyingToReview v;
       StateProps.siteUser := user state;
       StateProps.submittingReply := ViewState.submittingReply v |}.
Proof.
  intros Hr Hview. unfold mapStateToProps. rewrite Hr, Hview. reflexivity.
Qed.

(** X20. The flags follow the entry of the review: after an entry is
    stored under the review's id they are the stored ones, after the entry is
    deleted they are all false. *)
Theorem mapStateToProps_follows_entry (state : StateType) (p : PropsType)
    (r : UserReviewType) (v : ViewState.t) :
  review p = Some r ->
  view_flags
    (mapStateToProps
       (with_view state (<[review_id r := v]> (view (reviews state)))) p) = v
  /\ view_flags
       (mapStateToProps
          (with_view state (delete (review_id r) (view (reviews state)))) p) =
     ViewState.mk false false false.
Proof.
  intros Hr. unfold mapStateToProps, with_view, view_flags; cbn.
  rewrite Hr, lookup_insert_eq, lookup_delete_eq.
  split; [destruct v|]; reflexivity.
Qed.

(** X21. The flags do not depend on the entries of other reviews: storing
    or deleting an entry under another id leaves them as they are. *)
Theorem mapStateToProps_other_entries (state : StateType) (p : PropsType)
    (k : Z) (v : ViewState.t) :
  (forall r, review p = Some r -> review_id r <> k) ->
  view_flags
    (mapStateToProps
       (with_view state (<[k := v]> (view (reviews state)))) p) =
    view_flags (mapStateToProps state p)
  /\ view_flags
       (mapStateToProps
          (with_view state (delete k (view (reviews state)))) p) =
     view_flags (mapStateToProps state p).
Proof.
  intros Hother. unfold mapStateToProps, with_view, view_flags; cbn.
  destruct (review p) as [r|]; [|split; reflexivity].
  specialize (Hother r eq_refl).
  rewrite lookup_insert_ne, lookup_delete_ne by congruence.
  destruct (view (reviews state) !! review_id r); split; reflexivity.
Qed.

End StateClaims.

(** ** The body of a review *)

(** C7. The body paragraph of a rendered review carries
    [sanitizeHTML(nl2br(review.body), ['br'])] as its inner HTML, whatever the
    two helpers are. With the helpers of [Utils] the only tags of that markup
    are line breaks, and the body ["<script>x</script>\nhi"] gives [<br>hi]:
    one line break, no script element and none of its content. *)
Theorem body_markup_sanitized :
  (forall (I : Imports) (p : PropsType) (r : UserReviewType) (t : ReactNode),
     review p = Some r -> render p = Normal t ->
     body_markup t = Some (sanitizeHTML (nl2br (body r)) ["br"]))
  /\ (forall text name,
        name ∈ Utils.tags_of
                 (Utils.sanitizeHTML (Utils.nl2br text) ["br"]) ->
        name = "br")
  /\ (let markup :=
        Utils.sanitizeHTML
          (Utils.nl2br ("<script>x</script>" +:+ String "010" "hi")) ["br"] in
      markup = "<br>hi"
      /\ Utils.tags_of markup = ["br"]
      /\ Utils.text_of markup = "hi").
Proof.
  split; [|split].
  - intros I p r t. apply body_markup_of_review.
  - intros text name Hin.
    apply sanitizeHTML_allowed_only in Hin.
    apply list_elem_of_singleton in Hin. exact Hin.
  - repeat split; vm_compute; reflexivity.
Qed.

(** ** The claims at concrete inputs *)

Lemma begin_reply_affordance_iff_witness :
  begin_reply_shown (render Examples.seen_by_developer) = true
  /\ begin_reply_shown (render Examples.replied) = false.
Proof.
  split.
  - apply (proj1 (begin_reply_affordance_iff Examples.seen_by_developer)).
    exists Examples.script_review, Examples.an_addon, (mkUser (Some 7)).
    repeat split; discriminate.
  - apply (proj2 (begin_reply_affordance_iff Examples.replied)
             Examples.replied_review Examples.the_reply); reflexivity.
Defined.

Lemma edit_affordance_iff_witness :
  edit_affordance_shown (render Examples.seen_by_author) = true.
Proof.
  apply (edit_affordance_iff Examples.seen_by_author).
  split; [reflexivity|].
  exists Examples.script_review, (mkUser (Some 3)). repeat split.
Defined.

Lemma onClickToEditReview_in_reply_view_witness :
  isReplyToReviewId Examples.reply_view_loading = Some 5
  /\ review Examples.reply_view_loading = None
  /\ dispatched (onClickToEditReview Examples.reply_view_loading) =
       [showReplyToReviewForm 5].
Proof.
  split; [reflexivity | split; [reflexivity|]].
  apply (onClickToEditReview_in_reply_view Examples.reply_view_loading 5).
  reflexivity.
Defined.

(** Counterexample to C5 as stated: without a review no block is
    rendered, also while [replyingToReview] is true. *)
Lemma reply_block_needs_review :
  ~ (reply_block_shown (renderReply Examples.loading_replying) = true <->
     (exists r, review Examples.loading_replying = Some r
                /\ is_Some (reply r))
     \/ replyingToReview Examples.loading_replying = true).
Proof.
  intros [_ Hback]. specialize (Hback (or_intror eq_refl)).
  discriminate Hback.
Qed.

Lemma reply_block_iff_witness :
  reply_block_shown (renderReply Examples.replied) = true.
Proof.
  apply (reply_block_iff Examples.replied).
  exists Examples.replied_review. split; [reflexivity|].
  left. exists Examples.the_reply. reflexivity.
Defined.

Lemma body_markup_sanitized_witness :
  exists t, render Examples.seen_by_author = Normal t
            /\ body_markup t = Some "<br>hi".
Proof.
  eexists. split; [reflexivity|].
  exact (proj1 body_markup_sanitized Examples.imports Examples.seen_by_author
           Examples.script_review _ eq_refl eq_refl).
Defined.

Lemma render_while_loading_witness :
  review Examples.loading_replying = None
  /\ isAuthenticated Examples.loading_replying = true
  /\ edit_affordance_shown (render Examples.loading_replying) = false
  /\ begin_reply_shown (render Examples.loading_replying) = false.
Proof.
  split; [reflexivity | split; [reflexivity|]].
  apply (render_while_loading Examples.loading_replying). reflexivity.
Defined.

Lemma mapStateToProps_defaults_witness :
  view (reviews Examples.empty_state) !! review_id Examples.script_review = None
  /\ StateProps.replyingToReview
       (mapStateToProps Examples.empty_state Examples.seen_by_author) = false.
Proof.
  split; [reflexivity|].
  apply (mapStateToProps_defaults Examples.empty_state Examples.seen_by_author).
  right. exists Examples.script_review. split; reflexivity.
Defined.

Lemma composer_isSubmitting_iff_witness :
  submittingReply Examples.sending_failed = true
  /\ exists form,
       composer_of (renderReply Examples.sending_failed) = Some form
       /\ TextForm.isSubmitting form <> true.
Proof.
  split; [reflexivity|]. eexists. split; [reflexivity|].
  intros Hsub.
  apply (proj2 (composer_isSubmitting_iff Examples.sending_failed) _ eq_refl)
    in Hsub.
  destruct Hsub as [_ Herr]. discriminate Herr.
Defined.

(** ** The further properties at concrete inputs *)

Lemma onClickToEditReview_top_level_run_witness :
  isReplyToReviewId Examples.seen_by_author = None
  /\ dispatched (onClickToEditReview Examples.seen_by_author) =
       [showEditReviewForm 5].
Proof.
  split; [reflexivity|].
  exact (proj1 (proj2 (proj2
    (onClickToEditReview_top_level_run Examples.seen_by_author eq_refl)))).
Defined.

Lemma handlers_dispatch_at_most_once_witness :
  (OnClickToEditReview = OnClickToEditReview
   /\ isReplyToReviewId Examples.reply_view_loading =
        Some (action_reviewId (showReplyToReviewForm 5)))
  \/ exists r, review Examples.reply_view_loading = Some r
               /\ action_reviewId (showReplyToReviewForm 5) = review_id r.
Proof.
  apply (proj2 (proj2
    (handlers_dispatch_at_most_once OnClickToEditReview
       Examples.reply_view_loading (OnSubmitParams.mk "ok")))).
  left. reflexivity.
Defined.

Lemma handlers_dispatch_nothing_iff_witness :
  dispatched (fire OnDismissReviewReply Examples.loading
                (OnSubmitParams.mk "ok")) = [].
Proof.
  apply (handlers_dispatch_nothing_iff OnDismissReviewReply Examples.loading).
  split; [reflexivity | discriminate].
Defined.

Lemma fire_throws_iff_witness :
  exists e, completion (fire OnSubmitReviewReply Examples.loading_replying
                          (OnSubmitParams.mk "ok")) = Throw e.
Proof.
  apply (fire_throws_iff OnSubmitReviewReply Examples.loading_replying).
  split; reflexivity.
Defined.

Lemma render_throws_iff_witness :
  exists e, render Examples.viewer_missing = Throw e.
Proof.
  apply (proj1 (render_throws_iff Examples.viewer_missing)).
  repeat split. eexists. reflexivity.
Defined.

Lemma rating_rendered_witness :
  exists t, render Examples.seen_by_author = Normal t
            /\ select is_rating t = [Rating "small" 4 true].
Proof.
  eexists. split; [reflexivity|].
  exact (rating_rendered Examples.seen_by_author _ eq_refl).
Defined.

Lemma byline_rendered_witness :
  exists t, render Examples.reply_view = Normal t
            /\ nth_error (byline_children t) 1 =
                 Some (Text "posted %(timestamp)s").
Proof.
  eexists. split; [reflexivity|].
  exact (byline_rendered Examples.reply_view Examples.the_reply _
           eq_refl eq_refl).
Defined.

Lemma placeholders_rendered_witness :
  exists t, render Examples.loading = Normal t
            /\ length (select is_loading t) = 3%nat.
Proof.
  eexists. split; [reflexivity|].
  exact (placeholders_rendered Examples.loading _ eq_refl).
Defined.

Lemma inner_html_only_in_body_witness :
  exists t, render Examples.seen_by_author = Normal t
            /\ select sets_inner_html t =
                 [Host "p" (Dom.mk (Some reviewBodyClass) None None
                              (Some "<br>hi")) []].
Proof.
  eexists. split; [reflexivity|].
  exact (proj1 (inner_html_only_in_body Examples.seen_by_author _ eq_refl)).
Defined.

Lemma error_rendered_witness :
  exists t, render Examples.loading_failed = Normal t
            /\ select is_rendered t = [Rendered (Opaque "ErrorList")].
Proof.
  eexists. split; [reflexivity|].
  exact (error_rendered Examples.loading_failed _ eq_refl).
Defined.

Lemma overlay_rendered_witness :
  exists t, render Examples.editing = Normal t
            /\ select is_overlay t =
                 [AddonReview OnEscapeReviewOverlay OnReviewSubmitted
                    Examples.script_review].
Proof.
  eexists. split; [reflexivity|].
  exact (overlay_rendered Examples.editing _ eq_refl).
Defined.

Lemma rendered_links_dispatch_witness :
  exists t, render Examples.seen_by_developer = Normal t
            /\ click_handlers t = [OnClickToBeginReviewReply]
            /\ Forall (fun h => exists a,
                         fire h Examples.seen_by_developer
                           (OnSubmitParams.mk "ok") =
                           ([PreventDefault; Dispatch a], Normal tt))
                      (click_handlers t).
Proof.
  eexists. split; [reflexivity|]. split; [reflexivity|].
  exact (rendered_links_dispatch Examples.seen_by_developer _
           (OnSubmitParams.mk "ok") eq_refl).
Defined.

Lemma edit_of_reply_opens_parent_form_witness :
  exists r,
    review Examples.replied = Some r
    /\ Some Examples.the_reply = reply r /\ is_Some (Some Examples.the_reply)
    /\ fire OnClickToEditReview Examples.reply_view (OnSubmitParams.mk "ok") =
         ([PreventDefault; Dispatch (showReplyToReviewForm (review_id r))],
          Normal tt).
Proof.
  apply (edit_of_reply_opens_parent_form Examples.replied Examples.reply_view
           (Some Examples.an_addon) (Some 5) (Some Examples.the_reply)).
  - cbn. auto 10.
  - reflexivity.
Defined.

Lemma composer_labels_witness :
  exists form,
    composer_of (renderReply Examples.updating_reply) = Some form
    /\ TextForm.text form = Some "Thanks!"
    /\ TextForm.submitButtonText form = "Update reply".
Proof.
  eexists. split; [reflexivity|].
  destruct (composer_labels Examples.updating_reply Examples.replied_review
              _ eq_refl eq_refl) as (Htext & Hlabel & _).
  split; [exact Htext | exact Hlabel].
Defined.

Lemma composer_handlers_live_witness :
  exists form r,
    composer_of (renderReply Examples.sending_failed) = Some form
    /\ review Examples.sending_failed = Some r
    /\ completion (fire (TextForm.onSubmit form) Examples.sending_failed
                     (OnSubmitParams.mk "ok")) = Normal tt.
Proof.
  eexists.
  destruct (composer_handlers_live Examples.sending_failed _
              (OnSubmitParams.mk "ok") eq_refl) as (r & Hr & Hsubmit & _).
  exists r. split; [reflexivity|]. split; [exact Hr|].
  rewrite Hsubmit. reflexivity.
Defined.

Lemma connected_default_view_witness :
  connected_to Examples.empty_state Examples.seen_by_developer
  /\ exists t, render Examples.seen_by_developer = Normal t
               /\ select is_overlay t = [] /\ select is_composer t = [].
Proof.
  assert (Hconn : connected_to Examples.empty_state Examples.seen_by_developer)
    by (repeat split).
  split; [exact Hconn|].
  apply (connected_default_view Examples.empty_state
           Examples.seen_by_developer Hconn).
  intros r Hr. reflexivity.
Defined.

Lemma mapStateToProps_follows_entry_witness :
  view_flags
    (mapStateToProps
       (with_view Examples.empty_state
          (<[5 := Examples.replying_flags]> ∅)) Examples.seen_by_author) =
    Examples.replying_flags.
Proof.
  exact (proj1 (mapStateToProps_follows_entry Examples.empty_state
                  Examples.seen_by_author Examples.script_review
                  Examples.replying_flags eq_refl)).
Defined.

Lemma mapStateToProps_other_entries_witness :
  view_flags
    (mapStateToProps
       (with_view Examples.empty_state
          (<[6 := Examples.replying_flags]> ∅)) Examples.seen_by_author) =
    view_flags (mapStateToProps Examples.empty_state Examples.seen_by_author).
Proof.
  apply (mapStateToProps_other_entries Examples.empty_state
           Examples.seen_by_author 6 Examples.replying_flags).
  intros r Hr. injection Hr as <-. discriminate.
Defined.
